(** * clobBridge: the HTTP gateway in front of the Polymarket CLOB client

    A shallow embedding of [src/services/clobBridge.py].  The module-level
    global [polymarket_client], the lazily constructing [get_client] and the
    eight route handlers are translated one by one; Python's exceptions are an
    error monad layered over the state of the process, and every call into
    the external [Polymarket] object is recorded as an event, so that the
    statements below can speak about which calls a request performs.  What
    the client returns is any JSON-like value, read by the handlers the way
    the code reads it ([.get], iteration, [float]); a response is what
    FastAPI makes of the handler's result, rendering included. *)

From Stdlib Require Import ZArith Floats.
From stdpp Require Import base option list strings pretty gmap.

Set Warnings "-register-all".
Set Default Proof Using "Type".

Local Open Scope string_scope.
Local Open Scope Z_scope.
Local Open Scope list_scope.

(** ** Python values and exceptions *)

Module Py.

(** The values that cross the gateway: what the client hands back and what
    the handlers put into their JSON bodies.  A [dict] with string keys is
    a finite map; a Python [float] is an IEEE binary64 number. *)
Inductive val : Type :=
| None_
| Bool (b : bool)
| Int (z : Z)
| Float (f : float)
| Str (s : string)
| List (l : list val)
| Dict (d : gmap string val).

(** Exceptions derived from [Exception]: FastAPI's [HTTPException], which
    carries a status code and a detail, and every other class, of which the
    gateway only ever reads the class-independent [str(e)]. *)
Inductive exn : Type :=
| HTTPException (status_code : Z) (detail : string)
| Error (cls : string) (msg : string).

(** A call either returns or raises. *)
Inductive outcome (A : Type) : Type :=
| Returns (a : A)
| Raises (e : exn).
Arguments Returns {A} a.
Arguments Raises {A} e.

Definition raised {A} (r : outcome A) : option exn :=
  match r with Returns _ => None | Raises e => Some e end.

#[global] Instance outcome_ret : MRet outcome := @Returns.
#[global] Instance outcome_bind : MBind outcome := fun A B k r =>
  match r with Returns a => k a | Raises e => Raises e end.

(** What the interpreter and the web framework decide and the repository
    does not: how [float] reads a string, the texts of the errors [float]
    raises, [str] of an [HTTPException] (Starlette's [__str__]), and what
    FastAPI sends for a value returned under
    [response_model=BalanceResponse] ([None] when the value does not
    validate). *)
Record runtime : Type := {
  float_of_str : string -> option float;
  float_value_error : string -> string;
  float_type_error : val -> string;
  str_http : Z -> string -> string;
  as_BalanceResponse : val -> option val
}.

(** [float(n)] of an [int]: the nearest binary64 number, ties to even;
    [OverflowError] when that is out of range. *)
Definition float_of_int (z : Z) : option float :=
  let f := SF2Prim (binary_normalize prec emax z 0 false) in
  if PrimFloat.is_infinity f then None else Some f.

Section Builtins.
Variable rt : runtime.

(** [str(e)] *)
Definition str (e : exn) : string :=
  match e with
  | HTTPException c d => str_http rt c d
  | Error _ m => m
  end.

(** [float(v)] *)
Definition float_ (v : val) : outcome float :=
  match v with
  | Float f => Returns f
  | Int z =>
      match float_of_int z with
      | Some f => Returns f
      | None => Raises (Error "OverflowError" "int too large to convert to float")
      end
  | Bool b => Returns (if b then 1%float else 0%float)
  | Str s =>
      match float_of_str rt s with
      | Some f => Returns f
      | None => Raises (Error "ValueError" (float_value_error rt s))
      end
  | None_ | List _ | Dict _ => Raises (Error "TypeError" (float_type_error rt v))
  end.
End Builtins.

(** [d.get(k, dflt)] of a dict; [d.get(k)] is [get d k None_]. *)
Definition get (d : gmap string val) (k : string) (dflt : val) : val :=
  default dflt (d !! k).

(** [type(v).__name__] *)
Definition type_name (v : val) : string :=
  match v with
  | None_ => "NoneType"
  | Bool _ => "bool"
  | Int _ => "int"
  | Float _ => "float"
  | Str _ => "str"
  | List _ => "list"
  | Dict _ => "dict"
  end.

(** [v.get(k, dflt)] of any value: only a dict has the method. *)
Definition dot_get (v : val) (k : string) (dflt : val) : outcome val :=
  match v with
  | Dict d => Returns (get d k dflt)
  | _ =>
      Raises (Error "AttributeError"
                ("'" +:+ type_name v +:+ "' object has no attribute 'get'"))
  end.

(** What [for x in v] runs through: the items of a list, the keys of a
    dict, the characters of a string; nothing else is iterable.  The keys
    come in the order of the map and the characters byte by byte; the
    handlers call [.get] on each item, which a string does not have, so
    that order and the number of characters are never observed. *)
Definition iter (v : val) : outcome (list val) :=
  match v with
  | List l => Returns l
  | Dict d => Returns (Str <$> (map_to_list d).*1)
  | Str s => Returns ((fun c => Str (String c EmptyString)) <$> String.list_ascii_of_string s)
  | _ =>
      Raises (Error "TypeError" ("'" +:+ type_name v +:+ "' object is not iterable"))
  end.

(** What [json.dumps(v, allow_nan=False)] accepts: no float in [v] is a NaN
    or an infinity. *)
Fixpoint json_compliant (v : val) : bool :=
  match v with
  | Float f => negb (PrimFloat.is_nan f || PrimFloat.is_infinity f)
  | List l => forallb json_compliant l
  | Dict d => map_fold (fun _ v' acc => json_compliant v' && acc) true d
  | _ => true
  end.

(** [len(l)] *)
Definition len (l : list val) : val := Int (Z.of_nat (length l)).

(** A value [float] accepts. *)
Definition numeric (rt : runtime) (v : val) : bool :=
  match float_ rt v with Returns _ => true | Raises _ => false end.

End Py.

Import Py.

(** ** The external trading client *)

Module Polymarket.

(** The calls the gateway makes on the client, with their arguments. *)
Inductive call : Type :=
| GetBalance
| GetAddressForPrivateKey
| GetOrders
| GetPositions
| PlaceMarketOrder (token_id side : string) (amount : float)
| PlaceLimitOrder (token_id side : string) (amount price : float)
| CancelOrder (order_id : string)
| GetOrderBook (token_id : string).

(** The client is opaque: each method may read and change the outside world
    ([World]: the venue, the network, the environment) and returns any
    value, or raises.  [new] is the constructor [Polymarket()]. *)
Record api (World Client : Type) : Type := {
  new : World -> outcome Client * World;
  get_balance : Client -> World -> outcome val * World;
  get_address_for_private_key : Client -> World -> outcome val * World;
  get_orders : Client -> World -> outcome val * World;
  get_positions : Client -> World -> outcome val * World;
  place_market_order :
    Client -> string -> string -> float -> World -> outcome val * World;
  place_limit_order :
    Client -> string -> string -> float -> float -> World -> outcome val * World;
  cancel_order : Client -> string -> World -> outcome val * World;
  get_order_book : Client -> string -> World -> outcome val * World
}.
Arguments new {World Client} _ _.
Arguments get_balance {World Client} _ _ _.
Arguments get_address_for_private_key {World Client} _ _ _.
Arguments get_orders {World Client} _ _ _.
Arguments get_positions {World Client} _ _ _.
Arguments place_market_order {World Client} _ _ _ _ _ _.
Arguments place_limit_order {World Client} _ _ _ _ _ _ _.
Arguments cancel_order {World Client} _ _ _ _.
Arguments get_order_book {World Client} _ _ _ _.

(** What the gateway did to the client: the constructor or a method, and
    the exception if it raised. *)
Inductive event : Type :=
| Construct (exc : option exn)
| Invoke (c : call) (exc : option exn).

End Polymarket.

(** ** The gateway *)

Section Bridge.
Context {World Client : Type}.
Variable api : Polymarket.api World Client.
Variable rt : Py.runtime.

(** The state of the process: the module global [polymarket_client]
    ([None] until the first successful construction) and the world the
    client acts on. *)
Record state : Type := State {
  polymarket_client : option Client;
  world : World
}.

(** A computation runs from a state to an outcome, a state and the events
    it caused.  A raise keeps the state and the events reached so far, the
    way a Python exception leaves assignments already made in place. *)
Definition M (A : Type) : Type := state -> outcome A * state * list Polymarket.event.

Definition ret {A} (a : A) : M A := fun s => (Returns a, s, []).

Definition raise {A} (e : exn) : M A := fun s => (Raises e, s, []).

Definition bind {A B} (m : M A) (k : A -> M B) : M B := fun s =>
  match m s with
  | (Returns a, s1, t1) => let '(r, s2, t2) := k a s1 in (r, s2, t1 ++ t2)
  | (Raises e, s1, t1) => (Raises e, s1, t1)
  end.

(** [try: body  except Exception as e: handler e] *)
Definition try_except {A} (body : M A) (handler : exn -> M A) : M A := fun s =>
  match body s with
  | (Returns a, s1, t1) => (Returns a, s1, t1)
  | (Raises e, s1, t1) => let '(r, s2, t2) := handler e s1 in (r, s2, t1 ++ t2)
  end.

(** A pure computation that may raise, such as [float(v)]. *)
Definition lift {A} (r : outcome A) : M A := fun s => (r, s, []).

(** [Polymarket()] *)
Definition construct : M Client := fun s =>
  let '(r, w) := Polymarket.new api (world s) in
  (r, State (polymarket_client s) w, [Polymarket.Construct (raised r)]).

(** [client.method(args)] *)
Definition invoke {A} (c : Polymarket.call) (method : World -> outcome A * World) : M A :=
  fun s =>
    let '(r, w) := method (world s) in
    (r, State (polymarket_client s) w, [Polymarket.Invoke c (raised r)]).

Definition load_global : M (option Client) := fun s =>
  (Returns (polymarket_client s), s, []).

Definition store_global (c : Client) : M unit := fun s =>
  (Returns tt, State (Some c) (world s), []).

#[global] Instance M_ret : MRet M := @ret.
#[global] Instance M_bind : MBind M := fun A B k m => bind m k.

(** The body of every [except Exception as e] clause of the file:
    [raise HTTPException(status_code=500, detail=str(e))]. *)
Definition reraise_500 {A} (e : exn) : M A :=
  raise (HTTPException 500 (str rt e)).

(** *** The client handle (lines 21-27) *)

Definition get_client : M Client :=
  g ← load_global;
  match g with
  | None =>
      c ← construct;
      _ ← store_global c;
      ret c
  | Some c => ret c
  end.

(** *** Request models (lines 30-38) *)

Record OrderRequest : Type := {
  token_id : string;
  side : string;
  amount : float;
  price : option float
}.

(** *** Handlers *)

(** [GET /health] *)
Definition health_check : M val :=
  ret (Dict {[ "status" := Str "ok"; "service" := Str "polymarket-clob-bridge" ]}).

(** [GET /balance] *)
Definition get_balance : M val :=
  try_except
    (client ← get_client;
     balance ← invoke Polymarket.GetBalance (Polymarket.get_balance api client);
     address ← invoke Polymarket.GetAddressForPrivateKey
                 (Polymarket.get_address_for_private_key api client);
     ret (Dict {[ "usdc_balance" := balance; "address" := address ]}))
    reraise_500.

(** The dict appended for one raw order (lines 70-79): the values are
    evaluated in the order they are written, each [.get] on whatever the
    item is, so [price] is converted before [size]. *)
Definition order_item (order : val) : outcome val :=
  id_ ← dot_get order "id" None_;
  market ← dot_get order "market" None_;
  asset_id ← dot_get order "asset_id" None_;
  side_ ← dot_get order "side" None_;
  price_ ← dot_get order "price" (Int 0) ≫= float_ rt;
  size_ ← dot_get order "size" (Int 0) ≫= float_ rt;
  status_ ← dot_get order "status" None_;
  created_at ← dot_get order "created_at" None_;
  mret (Dict {[ "id" := id_;
                "market_id" := market;
                "token_id" := asset_id;
                "side" := side_;
                "price" := Float price_;
                "size" := Float size_;
                "status" := status_;
                "timestamp" := created_at ]}).

(** The dict appended for one raw position (lines 95-104). *)
Definition position_item (pos : val) : outcome val :=
  asset_id ← dot_get pos "asset_id" None_;
  market ← dot_get pos "market" None_;
  side_ ← dot_get pos "side" None_;
  size_ ← dot_get pos "size" (Int 0) ≫= float_ rt;
  value ← dot_get pos "value" (Int 0) ≫= float_ rt;
  entry_price ← dot_get pos "entry_price" (Int 0) ≫= float_ rt;
  current_price ← dot_get pos "current_price" (Int 0) ≫= float_ rt;
  pnl ← dot_get pos "pnl" (Int 0) ≫= float_ rt;
  mret (Dict {[ "token_id" := asset_id;
                "market" := market;
                "side" := side_;
                "size" := Float size_;
                "value" := Float value;
                "entry_price" := Float entry_price;
                "current_price" := Float current_price;
                "pnl" := Float pnl ]}).

(** [for x in xs: acc.append(item(x))], leaving the loop at the first
    raise. *)
Fixpoint for_append (item : val -> outcome val) (xs : list val) (acc : list val)
    : outcome (list val) :=
  match xs with
  | [] => Returns acc
  | x :: xs' =>
      match item x with
      | Returns y => for_append item xs' (acc ++ [y])
      | Raises e => Raises e
      end
  end.

(** Lines 67-81: the body built from what [get_orders] returned. *)
Definition orders_body (orders : val) : outcome val :=
  items ← iter orders;
  order_list ← for_append order_item items [];
  mret (Dict {[ "orders" := List order_list; "total" := len order_list ]}).

(** [GET /orders] *)
Definition get_open_orders : M val :=
  try_except
    (client ← get_client;
     orders ← invoke Polymarket.GetOrders (Polymarket.get_orders api client);
     lift (orders_body orders))
    reraise_500.

(** Lines 92-106: the body built from what [get_positions] returned. *)
Definition positions_body (positions : val) : outcome val :=
  items ← iter positions;
  position_list ← for_append position_item items [];
  mret (Dict {[ "positions" := List position_list; "total" := len position_list ]}).

(** [GET /positions] *)
Definition get_positions : M val :=
  try_except
    (client ← get_client;
     positions ← invoke Polymarket.GetPositions (Polymarket.get_positions api client);
     lift (positions_body positions))
    reraise_500.

(** Lines 122-127: the body built from what [place_market_order] returned. *)
Definition market_order_body (result : val) : outcome val :=
  order_id ← dot_get result "id" None_;
  status_ ← dot_get result "status" None_;
  filled_amount ← dot_get result "filled_amount" None_;
  mret (Dict {[ "success" := Bool true;
                "order_id" := order_id;
                "status" := status_;
                "filled_amount" := filled_amount ]}).

(** [POST /order/market] *)
Definition place_market_order (order_request : OrderRequest) : M val :=
  try_except
    (client ← get_client;
     result ← invoke
       (Polymarket.PlaceMarketOrder (token_id order_request) (side order_request)
          (amount order_request))
       (Polymarket.place_market_order api client (token_id order_request)
          (side order_request) (amount order_request));
     lift (market_order_body result))
    reraise_500.

(** Lines 147-151: the body built from what [place_limit_order] returned. *)
Definition limit_order_body (result : val) : outcome val :=
  order_id ← dot_get result "id" None_;
  status_ ← dot_get result "status" None_;
  mret (Dict {[ "success" := Bool true;
                "order_id" := order_id;
                "status" := status_ ]}).

(** [POST /order/limit]: the price check sits inside the [try], so the
    [HTTPException] it raises reaches the [except Exception] clause. *)
Definition place_limit_order (order_request : OrderRequest) : M val :=
  try_except
    (match price order_request with
     | None => raise (HTTPException 400 "Price is required for limit orders")
     | Some price_ =>
         client ← get_client;
         result ← invoke
           (Polymarket.PlaceLimitOrder (token_id order_request) (side order_request)
              (amount order_request) price_)
           (Polymarket.place_limit_order api client (token_id order_request)
              (side order_request) (amount order_request) price_);
         lift (limit_order_body result)
     end)
    reraise_500.

(** [DELETE /order/{order_id}]: what [cancel_order] returned is not read. *)
Definition cancel_order (order_id : string) : M val :=
  try_except
    (client ← get_client;
     result ← invoke (Polymarket.CancelOrder order_id)
                (Polymarket.cancel_order api client order_id);
     ret (Dict {[ "success" := Bool true;
                  "order_id" := Str order_id;
                  "status" := Str "cancelled" ]}))
    reraise_500.

(** Lines 177-182: the body built from what [get_order_book] returned. *)
Definition orderbook_body (token_id : string) (orderbook : val) : outcome val :=
  bids ← dot_get orderbook "bids" (List []);
  asks ← dot_get orderbook "asks" (List []);
  spread ← dot_get orderbook "spread" (Int 0);
  mret (Dict {[ "token_id" := Str token_id;
                "bids" := bids;
                "asks" := asks;
                "spread" := spread ]}).

(** [GET /markets/{token_id}/orderbook] *)
Definition get_orderbook (token_id : string) : M val :=
  try_except
    (client ← get_client;
     orderbook ← invoke (Polymarket.GetOrderBook token_id)
                   (Polymarket.get_order_book api client token_id);
     lift (orderbook_body token_id orderbook))
    reraise_500.

(** *** Routing and responses *)

(** A request as a handler receives it: FastAPI has matched one of the
    eight routes and, for the two placements, has validated the body into an
    [OrderRequest]; what FastAPI answers on its own before any handler runs
    (404, 405, 422) is not part of the file. *)
Inductive request : Type :=
| GET_health
| GET_balance
| GET_orders
| GET_positions
| POST_order_market (order_request : OrderRequest)
| POST_order_limit (order_request : OrderRequest)
| DELETE_order (order_id : string)
| GET_orderbook (token_id : string).

Definition route (req : request) : M val :=
  match req with
  | GET_health => health_check
  | GET_balance => get_balance
  | GET_orders => get_open_orders
  | GET_positions => get_positions
  | POST_order_market r => place_market_order r
  | POST_order_limit r => place_limit_order r
  | DELETE_order i => cancel_order i
  | GET_orderbook t => get_orderbook t
  end.

Record response : Type := Response {
  status : Z;
  body : val
}.

(** The [response_model] of the route decorators: [/balance] alone
    declares one (line 45). *)
Definition response_model (req : request) : val -> option val :=
  match req with
  | GET_balance => as_BalanceResponse rt
  | _ => Some
  end.

(** FastAPI's part, after the handler has finished: a returned value is
    passed through the response model and rendered with
    [json.dumps(allow_nan=False)]; it is sent with status 200 when both
    succeed, and otherwise the error escapes every handler and the answer
    is a bare 500.  An [HTTPException] is sent with its own status and the
    body [{"detail": detail}], any other exception as a bare 500. *)
Definition respond (model : val -> option val) (r : outcome val) : response :=
  match r with
  | Returns b =>
      match model b with
      | Some b' =>
          if json_compliant b' then Response 200 b'
          else Response 500 (Str "Internal Server Error")
      | None => Response 500 (Str "Internal Server Error")
      end
  | Raises (HTTPException c d) => Response c (Dict {[ "detail" := Str d ]})
  | Raises (Error _ _) => Response 500 (Str "Internal Server Error")
  end.

(** One request, from the router to the response. *)
Definition serve (req : request) (s : state) : response * state * list Polymarket.event :=
  let '(r, s', t) := route req s in (respond (response_model req) r, s', t).

(** Requests handled one after the other. *)
Fixpoint serve_all (reqs : list request) (s : state)
    : list response * state * list Polymarket.event :=
  match reqs with
  | [] => ([], s, [])
  | req :: reqs' =>
      let '(r, s1, t1) := serve req s in
      let '(rs, s2, t2) := serve_all reqs' s1 in
      (r :: rs, s2, t1 ++ t2)
  end.

End Bridge.

Arguments State {World Client} _ _.
Arguments M World Client A : clear implicits.

(** ** Vocabulary of the statements *)

(** The body of an error response. *)
Definition detail_body (msg : string) : val := Dict {[ "detail" := Str msg ]}.

(** What every [except] clause of the file turns an exception into. *)
Definition failed (rt : Py.runtime) (e : exn) : outcome val :=
  Raises (HTTPException 500 (str rt e)).

(** What a handler raises or returns once its [try] is left: a value as it
    is, an exception as the 500 of the [except] clause. *)
Definition settled (rt : Py.runtime) (r : outcome val) : outcome val :=
  match r with
  | Returns b => Returns b
  | Raises e => failed rt e
  end.

(** The answer FastAPI gives when an error escapes the handler. *)
Definition bare_500 : response := Response 500 (Str "Internal Server Error").

(** The requests whose handler reaches [get_client()]: all but [/health]
    and a limit order without a price. *)
Definition uses_client (req : request) : bool :=
  match req with
  | GET_health => false
  | POST_order_limit r => bool_decide (is_Some (price r))
  | _ => true
  end.

(** The method calls each route makes on the client when nothing raises. *)
Definition calls_of (req : request) : list Polymarket.call :=
  match req with
  | GET_health => []
  | GET_balance => [Polymarket.GetBalance; Polymarket.GetAddressForPrivateKey]
  | GET_orders => [Polymarket.GetOrders]
  | GET_positions => [Polymarket.GetPositions]
  | POST_order_market r =>
      [Polymarket.PlaceMarketOrder (token_id r) (side r) (amount r)]
  | POST_order_limit r =>
      match price r with
      | Some p => [Polymarket.PlaceLimitOrder (token_id r) (side r) (amount r) p]
      | None => []
      end
  | DELETE_order i => [Polymarket.CancelOrder i]
  | GET_orderbook t => [Polymarket.GetOrderBook t]
  end.

(** The method calls among the events, in order. *)
Definition invocations (t : list Polymarket.event) : list Polymarket.call :=
  omap (fun ev => match ev with Polymarket.Invoke c _ => Some c | _ => None end) t.

(** The constructor calls among the events, and those that returned. *)
Definition attempts (t : list Polymarket.event) : nat :=
  length (List.filter
    (fun ev => match ev with Polymarket.Construct _ => true | _ => false end) t).

Definition constructions (t : list Polymarket.event) : nat :=
  length (List.filter
    (fun ev => match ev with Polymarket.Construct None => true | _ => false end) t).

(** 1 when the handle holds an instance, 0 when it is unset. *)
Definition built {World Client} (s : @state World Client) : nat :=
  match polymarket_client s with Some _ => 1%nat | None => 0%nat end.

(** An event that records a raise of [e]. *)
Definition raises_in (e : exn) (ev : Polymarket.event) : Prop :=
  ev = Polymarket.Construct (Some e) \/ exists c, ev = Polymarket.Invoke c (Some e).

(** The fields [get_open_orders] and [get_positions] pass through [float];
    each keeps its key in the normalized item. *)
Definition order_numeric_fields : list string := ["price"; "size"].

Definition position_numeric_fields : list string :=
  ["size"; "value"; "entry_price"; "current_price"; "pnl"].

(** The other keys read from a raw record, sent as they are. *)
Definition order_plain_keys : list string :=
  ["id"; "market"; "asset_id"; "side"; "status"; "created_at"].

Definition position_plain_keys : list string := ["asset_id"; "market"; "side"].

(** The numeric field [k] of a raw record converts: it is missing, or
    [float] makes a number of it that JSON can carry. *)
Definition converts (rt : Py.runtime) (raw : gmap string val) (k : string) : bool :=
  match raw !! k with
  | None => true
  | Some v =>
      match float_ rt v with
      | Returns f => json_compliant (Float f)
      | Raises _ => false
      end
  end.

(** A raw record that can be normalized and sent: each numeric field
    converts and the values sent as they are can be rendered. *)
Definition sendable (rt : Py.runtime) (numeric plain : list string)
    (raw : gmap string val) : bool :=
  forallb (converts rt raw) numeric
  && forallb (fun k => json_compliant (get raw k None_)) plain.

(** [item] carries the numeric fields of [raw] normalized: it is a dict
    that holds, under each numeric key, the float that [float] made of the
    raw value, and 0.0 when the raw record has no such key. *)
Definition normalized (rt : Py.runtime) (fields : list string)
    (raw : gmap string val) (item : val) : Prop :=
  exists d, item = Dict d
    /\ forall k, In k fields ->
         exists f, d !! k = Some (Float f)
           /\ float_ rt (get raw k (Int 0)) = Returns f
           /\ (raw !! k = None -> f = 0%float).

(** An event without an exception: the call returned. *)
Definition clean (ev : Polymarket.event) : Prop :=
  match ev with
  | Polymarket.Construct None | Polymarket.Invoke _ None => True
  | _ => False
  end.

(** The keys [get_open_orders] and [get_positions] read from a raw record. *)
Definition order_read_keys : list string :=
  ["id"; "market"; "asset_id"; "side"; "price"; "size"; "status"; "created_at"].

Definition position_read_keys : list string :=
  ["asset_id"; "market"; "side"; "size"; "value"; "entry_price"; "current_price"; "pnl"].

(** ** A scripted client for the examples *)

Module Stub.

Definition unreachable : exn := Error "ConnectionError" "venue unreachable".

Definition no_market : exn := Error "LookupError" "no such market".

(** The world counts the constructor calls that will still fail; the
    methods answer from a fixed script, but for the two listings, which
    both return [listing], and the market order, which returns [placed]. *)
Definition scripted (listing placed : val) : Polymarket.api nat unit := {|
  Polymarket.new := fun w =>
    match w with
    | O => (Returns tt, O)
    | S n => (Raises unreachable, n)
    end;
  Polymarket.get_balance := fun _ w => (Returns (Float 12.5), w);
  Polymarket.get_address_for_private_key := fun _ w => (Returns (Str "0xA11CE"), w);
  Polymarket.get_orders := fun _ w => (Returns listing, w);
  Polymarket.get_positions := fun _ w => (Returns listing, w);
  Polymarket.place_market_order := fun _ _ _ _ w => (Returns placed, w);
  Polymarket.place_limit_order := fun _ _ _ _ _ w =>
    (Returns (Dict {[ "id" := Str "O2" ]}), w);
  Polymarket.cancel_order := fun _ _ w =>
    (Returns (Dict {[ "success" := Bool false; "error" := Str "order not found" ]}), w);
  Polymarket.get_order_book := fun _ t w =>
    if bool_decide (t = "T1")
    then (Returns (Dict {[ "bids" := List []; "spread" := Float 0.25 ]}), w)
    else (Raises no_market, w)
|}.

(** The client of most examples: the listings are a list of records and
    the market order is filled. *)
Definition client (orders : list (gmap string val)) : Polymarket.api nat unit :=
  scripted (List (Dict <$> orders))
    (Dict {[ "id" := Str "O1"; "status" := Str "FILLED"; "filled_amount" := Int 10 ]}).

(** A runtime for the examples: Starlette's [__str__] of an
    [HTTPException] is its detail after the status code; a balance body
    validates when its balance is a float and its address a string; no
    example converts a string with [float]. *)
Definition runtime : Py.runtime := {|
  float_of_str := fun _ => None;
  float_value_error := fun s => "could not convert string to float: " +:+ s;
  float_type_error := fun _ => "float() argument must be a string or a real number";
  str_http := fun c d => pretty c +:+ ": " +:+ d;
  as_BalanceResponse := fun v =>
    match v with
    | Dict d =>
        match d !! "usdc_balance", d !! "address" with
        | Some (Float _), Some (Str _) => Some v
        | _, _ => None
        end
    | _ => None
    end
|}.

Definition T1_BUY_10 : OrderRequest :=
  {| token_id := "T1"; side := "BUY"; amount := 10; price := None |}.

End Stub.

(** ** Properties *)

Section Properties.
Context {World Client : Type}.
Variable api : Polymarket.api World Client.
Variable rt : Py.runtime.

Implicit Types (s : @state World Client) (e : exn) (req : request).

Lemma get_client_eq s :
  get_client api s =
    match polymarket_client s with
    | Some c => (Returns c, s, [])
    | None =>
        match Polymarket.new api (world s) with
        | (Returns c, w) => (Returns c, State (Some c) w, [Polymarket.Construct None])
        | (Raises e, w) => (Raises e, State None w, [Polymarket.Construct (Some e)])
        end
    end.
Proof.
  unfold get_client, mbind, M_bind, bind, load_global, construct, store_global, ret.
  destruct s as [[c|] w]; cbn [polymarket_client world]; [reflexivity|].
  destruct (Polymarket.new api w) as [[c|e] w']; reflexivity.
Qed.

(** *** The handlers, flattened to the replies of the client *)

Ltac unfold_handler :=
  unfold health_check, get_balance, get_open_orders, get_positions,
    place_market_order, place_limit_order, cancel_order, get_orderbook,
    try_except, reraise_500, raise, lift, invoke, mbind, M_bind, bind, ret,
    settled, failed.

Ltac by_cases_on_replies :=
  repeat
    (cbn [world polymarket_client];
     match goal with
     | |- context [get_client ?a ?s] => destruct (get_client a s) as [[[?|?] ?] ?]
     | |- context [match ?m ?w with _ => _ end] => destruct (m w) as [[?|?] ?]
     | |- context [match ?body with Returns _ => _ | Raises _ => _ end] =>
         destruct body
     end);
  cbn [app raised]; rewrite ?app_nil_r; try reflexivity.

Lemma get_balance_eq s :
  get_balance api rt s =
    match get_client api s with
    | (Returns c, s1, t1) =>
        match Polymarket.get_balance api c (world s1) with
        | (Returns balance, w1) =>
            match Polymarket.get_address_for_private_key api c w1 with
            | (Returns address, w2) =>
                (Returns (Dict {[ "usdc_balance" := balance; "address" := address ]}),
                 State (polymarket_client s1) w2,
                 t1 ++ [Polymarket.Invoke Polymarket.GetBalance None;
                        Polymarket.Invoke Polymarket.GetAddressForPrivateKey None])
            | (Raises e, w2) =>
                (failed rt e, State (polymarket_client s1) w2,
                 t1 ++ [Polymarket.Invoke Polymarket.GetBalance None;
                        Polymarket.Invoke Polymarket.GetAddressForPrivateKey (Some e)])
            end
        | (Raises e, w1) =>
            (failed rt e, State (polymarket_client s1) w1,
             t1 ++ [Polymarket.Invoke Polymarket.GetBalance (Some e)])
        end
    | (Raises e, s1, t1) => (failed rt e, s1, t1)
    end.
Proof. unfold_handler. by_cases_on_replies. Qed.

Lemma get_open_orders_eq s :
  get_open_orders api rt s =
    match get_client api s with
    | (Returns c, s1, t1) =>
        match Polymarket.get_orders api c (world s1) with
        | (Returns orders, w) =>
            (settled rt (orders_body rt orders), State (polymarket_client s1) w,
             t1 ++ [Polymarket.Invoke Polymarket.GetOrders None])
        | (Raises e, w) =>
            (failed rt e, State (polymarket_client s1) w,
             t1 ++ [Polymarket.Invoke Polymarket.GetOrders (Some e)])
        end
    | (Raises e, s1, t1) => (failed rt e, s1, t1)
    end.
Proof. unfold_handler. by_cases_on_replies. Qed.

Lemma get_positions_eq s :
  get_positions api rt s =
    match get_client api s with
    | (Returns c, s1, t1) =>
        match Polymarket.get_positions api c (world s1) with
        | (Returns positions, w) =>
            (settled rt (positions_body rt positions), State (polymarket_client s1) w,
             t1 ++ [Polymarket.Invoke Polymarket.GetPositions None])
        | (Raises e, w) =>
            (failed rt e, State (polymarket_client s1) w,
             t1 ++ [Polymarket.Invoke Polymarket.GetPositions (Some e)])
        end
    | (Raises e, s1, t1) => (failed rt e, s1, t1)
    end.
Proof. unfold_handler. by_cases_on_replies. Qed.

Lemma place_market_order_eq (r : OrderRequest) s :
  place_market_order api rt r s =
    match get_client api s with
    | (Returns c, s1, t1) =>
        let call := Polymarket.PlaceMarketOrder (token_id r) (side r) (amount r) in
        match Polymarket.place_market_order api c (token_id r) (side r) (amount r)
                (world s1) with
        | (Returns result, w) =>
            (settled rt (market_order_body result), State (polymarket_client s1) w,
             t1 ++ [Polymarket.Invoke call None])
        | (Raises e, w) =>
            (failed rt e, State (polymarket_client s1) w,
             t1 ++ [Polymarket.Invoke call (Some e)])
        end
    | (Raises e, s1, t1) => (failed rt e, s1, t1)
    end.
Proof. unfold_handler. by_cases_on_replies. Qed.

Lemma place_limit_order_eq (r : OrderRequest) s :
  place_limit_order api rt r s =
    match price r with
    | None => (failed rt (HTTPException 400 "Price is required for limit orders"), s, [])
    | Some p =>
        match get_client api s with
        | (Returns c, s1, t1) =>
            let call := Polymarket.PlaceLimitOrder (token_id r) (side r) (amount r) p in
            match Polymarket.place_limit_order api c (token_id r) (side r) (amount r) p
                    (world s1) with
            | (Returns result, w) =>
                (settled rt (limit_order_body result), State (polymarket_client s1) w,
                 t1 ++ [Polymarket.Invoke call None])
            | (Raises e, w) =>
                (failed rt e, State (polymarket_client s1) w,
                 t1 ++ [Polymarket.Invoke call (Some e)])
            end
        | (Raises e, s1, t1) => (failed rt e, s1, t1)
        end
    end.
Proof. unfold_handler. destruct (price r); [|reflexivity]. by_cases_on_replies. Qed.

Lemma cancel_order_eq (order_id : string) s :
  cancel_order api rt order_id s =
    match get_client api s with
    | (Returns c, s1, t1) =>
        match Polymarket.cancel_order api c order_id (world s1) with
        | (Returns _, w) =>
            (Returns (Dict {[ "success" := Bool true;
                              "order_id" := Str order_id;
                              "status" := Str "cancelled" ]}),
             State (polymarket_client s1) w,
             t1 ++ [Polymarket.Invoke (Polymarket.CancelOrder order_id) None])
        | (Raises e, w) =>
            (failed rt e, State (polymarket_client s1) w,
             t1 ++ [Polymarket.Invoke (Polymarket.CancelOrder order_id) (Some e)])
        end
    | (Raises e, s1, t1) => (failed rt e, s1, t1)
    end.
Proof. unfold_handler. by_cases_on_replies. Qed.

Lemma get_orderbook_eq (token : string) s :
  get_orderbook api rt token s =
    match get_client api s with
    | (Returns c, s1, t1) =>
        match Polymarket.get_order_book api c token (world s1) with
        | (Returns orderbook, w) =>
            (settled rt (orderbook_body token orderbook), State (polymarket_client s1) w,
             t1 ++ [Polymarket.Invoke (Polymarket.GetOrderBook token) None])
        | (Raises e, w) =>
            (failed rt e, State (polymarket_client s1) w,
             t1 ++ [Polymarket.Invoke (Polymarket.GetOrderBook token) (Some e)])
        end
    | (Raises e, s1, t1) => (failed rt e, s1, t1)
    end.
Proof. unfold_handler. by_cases_on_replies. Qed.

(** *** Rendering *)

Lemma json_compliant_Dict (d : gmap string val) :
  json_compliant (Dict d) = true <-> map_Forall (fun _ v => json_compliant v = true) d.
Proof.
  cbn [json_compliant].
  induction d as [|k v d Hk Hfold IH] using map_first_key_ind.
  - rewrite map_fold_empty. split; [intros _; apply map_Forall_empty | intros _; reflexivity].
  - rewrite map_fold_insert_first_key by assumption.
    rewrite andb_true_iff, IH, map_Forall_insert by assumption. reflexivity.
Qed.

Lemma json_compliant_List (l : list val) :
  json_compliant (List l) = true <-> Forall (fun v => json_compliant v = true) l.
Proof. cbn [json_compliant]. rewrite forallb_forall, List.Forall_forall. reflexivity. Qed.

(** Splits the compliance of a dict literal into that of its values. *)
Ltac compliant_literal :=
  apply json_compliant_Dict;
  repeat (apply map_Forall_insert_2; [|]);
  lazymatch goal with
  | |- map_Forall _ _ => apply map_Forall_empty
  | |- _ => idtac
  end.

Lemma health_body_compliant :
  json_compliant
    (Dict {[ "status" := Str "ok"; "service" := Str "polymarket-clob-bridge" ]}) = true.
Proof. reflexivity. Qed.

Lemma cancelled_body_compliant (order_id : string) :
  json_compliant
    (Dict {[ "success" := Bool true; "order_id" := Str order_id;
             "status" := Str "cancelled" ]}) = true.
Proof. compliant_literal; reflexivity. Qed.

(** *** Requests *)

Ltac open_request :=
  unfold serve, route, health_check, ret;
  rewrite ?get_balance_eq, ?get_open_orders_eq, ?get_positions_eq,
    ?place_market_order_eq, ?place_limit_order_eq, ?cancel_order_eq,
    ?get_orderbook_eq, ?get_client_eq.

Ltac case_replies :=
  repeat
    (cbn [world polymarket_client];
     match goal with
     | |- context [match polymarket_client ?s with _ => _ end] =>
         destruct (polymarket_client s) eqn:?
     | |- context [match price ?r with _ => _ end] => destruct (price r) eqn:?
     | |- context [settled ?r ?b] => destruct b eqn:?; cbn [settled]
     | |- context [match ?m ?w with _ => _ end] => destruct (m w) as [[?|?] ?] eqn:?
     end);
  cbv beta iota zeta; cbn [app respond response_model failed status body];
  try match goal with
    | |- context [json_compliant (Dict (<["status" := Str "ok"]> _))] =>
        rewrite health_body_compliant
    end;
  repeat match goal with
    | |- context [as_BalanceResponse ?r ?v] => destruct (as_BalanceResponse r v)
    | |- context [json_compliant ?v] => destruct (json_compliant v)
    end;
  cbn [status body].

Lemma respond_failed model e :
  respond model (failed rt e) = Response 500 (detail_body (str rt e)).
Proof. reflexivity. Qed.

(** C9: [GET /health] answers with the fixed body, in every state of the
    client handle, leaves the state as it was and makes no call on the
    client, constructor included. *)
Theorem health_check_always_ok s :
  serve api rt GET_health s =
    (Response 200 (Dict {[ "status" := Str "ok";
                           "service" := Str "polymarket-clob-bridge" ]}),
     s, []).
Proof. reflexivity. Qed.

(** C1: a limit order without a price makes no call on the client and
    leaves the state alone, but the 400 raised by the price check is caught
    by the handler's own [except Exception] clause: the response is a 500
    whose detail is [str] of that [HTTPException]. *)
Theorem limit_order_without_price_is_500 (token side_ : string) (amount_ : float) s :
  serve api rt
    (POST_order_limit
       {| token_id := token; side := side_; amount := amount_; price := None |}) s =
    (Response 500
       (detail_body (str_http rt 400 "Price is required for limit orders")),
     s, []).
Proof. open_request. reflexivity. Qed.

(** C4: once the client is at hand and its [cancel_order] returns, whatever
    it returns, [DELETE /order/{id}] answers 200 with exactly
    [{success: true, order_id: id, status: "cancelled"}]. *)
Theorem cancel_order_unconditional_success
    (order_id : string) s (c : Client) s1 t1 (reply : val) (w : World) :
  get_client api s = (Returns c, s1, t1) ->
  Polymarket.cancel_order api c order_id (world s1) = (Returns reply, w) ->
  serve api rt (DELETE_order order_id) s =
    (Response 200 (Dict {[ "success" := Bool true;
                           "order_id" := Str order_id;
                           "status" := Str "cancelled" ]}),
     State (polymarket_client s1) w,
     t1 ++ [Polymarket.Invoke (Polymarket.CancelOrder order_id) None]).
Proof.
  intros Hclient Hcancel. unfold serve, route.
  rewrite cancel_order_eq, Hclient, Hcancel. cbn [respond response_model].
  now rewrite cancelled_body_compliant.
Qed.

(** C5: whichever route is served, if the constructor or a method of the
    client raised [e] while it was served, the response is a 500 with the
    body [{detail: str(e)}]; the class of [e] plays no part. *)
Theorem client_exception_becomes_500 req s resp s' t e :
  serve api rt req s = (resp, s', t) ->
  Exists (raises_in e) t ->
  resp = Response 500 (detail_body (str rt e)).
Proof.
  intros Hserve Hraise. revert Hserve.
  destruct req; open_request; case_replies; intros [= <- <- <-];
    repeat match goal with
      | H : Exists _ [] |- _ => inversion H
      | H : Exists _ (_ :: _) |- _ =>
          apply Exists_cons in H; destruct H as [[H|[? H]]|H]; try discriminate H
      end;
    unfold detail_body; congruence.
Qed.

(** *** The normalization loop *)

Section Loop.
Variable item : val -> outcome val.

Lemma for_append_returns xs acc l :
  for_append item xs acc = Returns l ->
  exists ys, l = acc ++ ys /\ Forall2 (fun x y => item x = Returns y) xs ys.
Proof.
  revert acc. induction xs as [|x xs IH]; intros acc; cbn [for_append].
  - intros [= <-]. exists []. split; [now rewrite app_nil_r | constructor].
  - destruct (item x) as [y|e] eqn:Hx; [|discriminate].
    intros H. apply IH in H as (ys & -> & Hys).
    exists (y :: ys). split; [now rewrite <- app_assoc | now constructor].
Qed.

Lemma for_append_length xs l :
  for_append item xs [] = Returns l -> length l = length xs.
Proof.
  intros H. apply for_append_returns in H as (ys & -> & Hys).
  symmetry. exact (Forall2_length _ _ _ Hys).
Qed.

Lemma for_append_all xs acc ys :
  Forall2 (fun x y => item x = Returns y) xs ys ->
  for_append item xs acc = Returns (acc ++ ys).
Proof.
  intros H. revert acc. induction H as [|x y xs ys Hx _ IH]; intros acc; cbn [for_append].
  - now rewrite app_nil_r.
  - rewrite Hx, IH, <- app_assoc. reflexivity.
Qed.

Lemma for_append_raises xs acc e :
  for_append item xs acc = Raises e -> exists x, In x xs /\ item x = Raises e.
Proof.
  revert acc. induction xs as [|x xs IH]; intros acc; cbn [for_append]; [discriminate|].
  destruct (item x) as [y|e'] eqn:Hx.
  - intros H. apply IH in H as (x' & Hin & Hx'). exists x'. split; [now right | exact Hx'].
  - intros [= ->]. exists x. split; [now left | exact Hx].
Qed.

Lemma for_append_stops xs acc x e :
  In x xs -> item x = Raises e -> exists e', for_append item xs acc = Raises e'.
Proof.
  revert acc. induction xs as [|x0 xs IH]; intros acc; cbn [for_append In]; [tauto|].
  intros [->|Hin] Hx.
  - rewrite Hx. now exists e.
  - destruct (item x0) as [y|e0]; [now apply IH | now exists e0].
Qed.
End Loop.

(** The two listings, for a reply that is a list. *)
Lemma orders_body_List (raw : list val) :
  orders_body rt (List raw) =
    match for_append (order_item rt) raw [] with
    | Returns l => Returns (Dict {[ "orders" := List l; "total" := len l ]})
    | Raises e => Raises e
    end.
Proof. reflexivity. Qed.

Lemma positions_body_List (raw : list val) :
  positions_body rt (List raw) =
    match for_append (position_item rt) raw [] with
    | Returns l => Returns (Dict {[ "positions" := List l; "total" := len l ]})
    | Raises e => Raises e
    end.
Proof. reflexivity. Qed.

(** C8: when [/orders] or [/positions] succeeds, [total] is the length of
    the list sent in the same body, and that list has one item per raw
    record the client returned; an empty reply succeeds with total 0. *)
Theorem total_is_length_of_list s (c : Client) s1 t1 :
  get_client api s = (Returns c, s1, t1) ->
  (forall raw w resp s' t,
      Polymarket.get_orders api c (world s1) = (Returns (List raw), w) ->
      serve api rt GET_orders s = (resp, s', t) ->
      status resp = 200 ->
      exists l, body resp = Dict {[ "orders" := List l;
                                    "total" := Int (Z.of_nat (length l)) ]}
                /\ length l = length raw)
  /\ (forall raw w resp s' t,
      Polymarket.get_positions api c (world s1) = (Returns (List raw), w) ->
      serve api rt GET_positions s = (resp, s', t) ->
      status resp = 200 ->
      exists l, body resp = Dict {[ "positions" := List l;
                                    "total" := Int (Z.of_nat (length l)) ]}
                /\ length l = length raw)
  /\ (forall w,
      Polymarket.get_orders api c (world s1) = (Returns (List []), w) ->
      (serve api rt GET_orders s).1.1 =
        Response 200 (Dict {[ "orders" := List []; "total" := Int 0 ]}))
  /\ (forall w,
      Polymarket.get_positions api c (world s1) = (Returns (List []), w) ->
      (serve api rt GET_positions s).1.1 =
        Response 200 (Dict {[ "positions" := List []; "total" := Int 0 ]})).
Proof.
  intros Hclient. repeat split.
  - intros raw w resp s' t Hcall. unfold serve, route.
    rewrite get_open_orders_eq, Hclient, Hcall, orders_body_List.
    destruct (for_append _ raw []) as [l|e] eqn:Hloop;
      cbn [settled failed respond response_model];
      [destruct (json_compliant _)|];
      intros [= <- <- <-]; cbn [status body]; try discriminate.
    intros _. exists l. split; [reflexivity | exact (for_append_length _ _ _ Hloop)].
  - intros raw w resp s' t Hcall. unfold serve, route.
    rewrite get_positions_eq, Hclient, Hcall, positions_body_List.
    destruct (for_append _ raw []) as [l|e] eqn:Hloop;
      cbn [settled failed respond response_model];
      [destruct (json_compliant _)|];
      intros [= <- <- <-]; cbn [status body]; try discriminate.
    intros _. exists l. split; [reflexivity | exact (for_append_length _ _ _ Hloop)].
  - intros w Hcall. unfold serve, route.
    rewrite get_open_orders_eq, Hclient, Hcall. reflexivity.
  - intros w Hcall. unfold serve, route.
    rewrite get_positions_eq, Hclient, Hcall. reflexivity.
Qed.








(** *** Numeric fields *)

Lemma float_of_missing (raw : gmap string val) (k : string) :
  raw !! k = None -> float_ rt (get raw k (Int 0)) = Returns 0%float.
Proof. intros H. unfold get. rewrite H. reflexivity. Qed.

Lemma float_of_present (raw : gmap string val) (k : string) e :
  float_ rt (get raw k (Int 0)) = Raises e ->
  exists v, raw !! k = Some v /\ float_ rt v = Raises e.
Proof.
  unfold get. destruct (raw !! k) as [v|]; cbn [default from_option id].
  - intros H. now exists v.
  - discriminate.
Qed.

Lemma converts_float (raw : gmap string val) (k : string) :
  converts rt raw k = true ->
  exists f, float_ rt (get raw k (Int 0)) = Returns f
    /\ json_compliant (Float f) = true.
Proof.
  unfold converts, get. destruct (raw !! k) as [v|]; cbn [default from_option id].
  - destruct (float_ rt v) as [f|e]; [|discriminate]. intros H. now exists f.
  - intros _. now exists 0%float.
Qed.

(** The items, for a record. *)
Lemma order_item_Dict (raw : gmap string val) :
  order_item rt (Dict raw) =
    match float_ rt (get raw "price" (Int 0)) with
    | Returns price_ =>
        match float_ rt (get raw "size" (Int 0)) with
        | Returns size_ =>
            Returns (Dict {[ "id" := get raw "id" None_;
                             "market_id" := get raw "market" None_;
                             "token_id" := get raw "asset_id" None_;
                             "side" := get raw "side" None_;
                             "price" := Float price_;
                             "size" := Float size_;
                             "status" := get raw "status" None_;
                             "timestamp" := get raw "created_at" None_ ]})
        | Raises e => Raises e
        end
    | Raises e => Raises e
    end.
Proof. reflexivity. Qed.

Lemma position_item_Dict (raw : gmap string val) :
  position_item rt (Dict raw) =
    match float_ rt (get raw "size" (Int 0)) with
    | Returns size_ =>
        match float_ rt (get raw "value" (Int 0)) with
        | Returns value =>
            match float_ rt (get raw "entry_price" (Int 0)) with
            | Returns entry_price =>
                match float_ rt (get raw "current_price" (Int 0)) with
                | Returns current_price =>
                    match float_ rt (get raw "pnl" (Int 0)) with
                    | Returns pnl =>
                        Returns (Dict {[ "token_id" := get raw "asset_id" None_;
                                         "market" := get raw "market" None_;
                                         "side" := get raw "side" None_;
                                         "size" := Float size_;
                                         "value" := Float value;
                                         "entry_price" := Float entry_price;
                                         "current_price" := Float current_price;
                                         "pnl" := Float pnl ]})
                    | Raises e => Raises e
                    end
                | Raises e => Raises e
                end
            | Raises e => Raises e
            end
        | Raises e => Raises e
        end
    | Raises e => Raises e
    end.
Proof. reflexivity. Qed.

Ltac item_cases :=
  rewrite ?order_item_Dict, ?position_item_Dict;
  repeat match goal with
    | |- context [match float_ ?r ?v with _ => _ end] => destruct (float_ r v) eqn:?
    end.

Ltac pick_field Hk :=
  cbn [In order_numeric_fields position_numeric_fields] in Hk;
  repeat (destruct Hk as [<-|Hk]); try contradiction.

(** An item that is built carries its numeric fields normalized. *)
Lemma order_item_normalized (raw : gmap string val) (item : val) :
  order_item rt (Dict raw) = Returns item ->
  normalized rt order_numeric_fields raw item.
Proof.
  item_cases; intros [= <-]. eexists. split; [reflexivity|].
  intros k Hk. pick_field Hk; eexists; (split; [reflexivity|]);
    (split; [assumption|]); intros Hmiss; rewrite (float_of_missing _ _ Hmiss) in *;
    congruence.
Qed.

Lemma position_item_normalized (raw : gmap string val) (item : val) :
  position_item rt (Dict raw) = Returns item ->
  normalized rt position_numeric_fields raw item.
Proof.
  item_cases; intros [= <-]. eexists. split; [reflexivity|].
  intros k Hk. pick_field Hk; eexists; (split; [reflexivity|]);
    (split; [assumption|]); intros Hmiss; rewrite (float_of_missing _ _ Hmiss) in *;
    congruence.
Qed.

(** A record that is sendable gives an item that can be rendered. *)
Lemma order_item_sendable (raw : gmap string val) :
  sendable rt order_numeric_fields order_plain_keys raw = true ->
  exists item, order_item rt (Dict raw) = Returns item /\ json_compliant item = true.
Proof.
  unfold sendable. cbn [forallb order_numeric_fields order_plain_keys].
  rewrite !andb_true_iff.
  intros [(Hp & Hs & _) (? & ? & ? & ? & ? & ? & _)].
  destruct (converts_float _ _ Hp) as (p & Hpf & ?).
  destruct (converts_float _ _ Hs) as (z & Hzf & ?).
  rewrite order_item_Dict, Hpf, Hzf. eexists. split; [reflexivity|].
  compliant_literal; assumption.
Qed.

Lemma position_item_sendable (raw : gmap string val) :
  sendable rt position_numeric_fields position_plain_keys raw = true ->
  exists item, position_item rt (Dict raw) = Returns item /\ json_compliant item = true.
Proof.
  unfold sendable. cbn [forallb position_numeric_fields position_plain_keys].
  rewrite !andb_true_iff.
  intros [(H1 & H2 & H3 & H4 & H5 & _) (? & ? & ? & _)].
  destruct (converts_float _ _ H1) as (f1 & E1 & ?).
  destruct (converts_float _ _ H2) as (f2 & E2 & ?).
  destruct (converts_float _ _ H3) as (f3 & E3 & ?).
  destruct (converts_float _ _ H4) as (f4 & E4 & ?).
  destruct (converts_float _ _ H5) as (f5 & E5 & ?).
  rewrite position_item_Dict, E1, E2, E3, E4, E5. eexists. split; [reflexivity|].
  compliant_literal; assumption.
Qed.

(** A numeric field that is present with a value [float] rejects makes the
    item raise, and an item raises nothing but what [float] raised on a
    present numeric field. *)
Lemma order_item_rejects (raw : gmap string val) (k : string) (v : val) :
  In k order_numeric_fields -> raw !! k = Some v -> numeric rt v = false ->
  exists e, order_item rt (Dict raw) = Raises e.
Proof.
  intros Hk Hv Hnum. item_cases; try (eexists; reflexivity).
  exfalso. pick_field Hk; unfold numeric in Hnum; unfold get in *; rewrite Hv in *;
    cbn [default from_option id] in *;
    match goal with H : float_ rt v = Returns _ |- _ => rewrite H in Hnum end;
    discriminate.
Qed.

Lemma position_item_rejects (raw : gmap string val) (k : string) (v : val) :
  In k position_numeric_fields -> raw !! k = Some v -> numeric rt v = false ->
  exists e, position_item rt (Dict raw) = Raises e.
Proof.
  intros Hk Hv Hnum. item_cases; try (eexists; reflexivity).
  exfalso. pick_field Hk; unfold numeric in Hnum; unfold get in *; rewrite Hv in *;
    cbn [default from_option id] in *;
    match goal with H : float_ rt v = Returns _ |- _ => rewrite H in Hnum end;
    discriminate.
Qed.

Lemma order_item_raises (raw : gmap string val) e :
  order_item rt (Dict raw) = Raises e ->
  exists k v, In k order_numeric_fields /\ raw !! k = Some v /\ float_ rt v = Raises e.
Proof.
  item_cases; intros [= <-];
    match goal with
    | H : float_ rt (get raw ?k' _) = Raises _ |- _ =>
        exists k'; destruct (float_of_present _ _ _ H) as (v & Hv & Hf);
        exists v; repeat split; [cbn; tauto | exact Hv | exact Hf]
    end.
Qed.

Lemma position_item_raises (raw : gmap string val) e :
  position_item rt (Dict raw) = Raises e ->
  exists k v, In k position_numeric_fields /\ raw !! k = Some v /\ float_ rt v = Raises e.
Proof.
  item_cases; intros [= <-];
    match goal with
    | H : float_ rt (get raw ?k' _) = Raises _ |- _ =>
        exists k'; destruct (float_of_present _ _ _ H) as (v & Hv & Hf);
        exists v; repeat split; [cbn; tauto | exact Hv | exact Hf]
    end.
Qed.

(** The same three facts for a whole listing, whatever the item function:
    records that all give a renderable item give a renderable list; the
    items of a list that was built are those of the records, in order; and
    one record whose item raises makes the loop raise what the item of some
    record raised. *)
Section Listing.
Variable item : val -> outcome val.
Variable key : string.

Lemma listing_sendable (raw : list (gmap string val)) (ok : gmap string val -> bool) :
  (forall r, ok r = true ->
     exists y, item (Dict r) = Returns y /\ json_compliant y = true) ->
  Forall (fun r => ok r = true) raw ->
  exists l,
    for_append item (Dict <$> raw) [] = Returns l
    /\ json_compliant (Dict {[ key := List l; "total" := len l ]}) = true.
Proof.
  intros Hitem Hraw.
  assert (exists l, Forall2 (fun x y => item x = Returns y) (Dict <$> raw) l
                    /\ Forall (fun y => json_compliant y = true) l) as (l & Hl & Hok).
  { induction Hraw as [|r raw Hr _ (l & Hl & Hok)].
    - exists []. split; constructor.
    - destruct (Hitem r Hr) as (y & Hy & Hyok). exists (y :: l).
      split; constructor; assumption. }
  exists l. split; [exact (for_append_all item _ [] l Hl)|].
  apply json_compliant_Dict. apply map_Forall_insert_2.
  - now apply json_compliant_List.
  - apply map_Forall_insert_2; [reflexivity | apply map_Forall_empty].
Qed.

Lemma listing_items (raw : list (gmap string val)) (l : list val)
    (R : gmap string val -> val -> Prop) :
  (forall r y, item (Dict r) = Returns y -> R r y) ->
  for_append item (Dict <$> raw) [] = Returns l ->
  Forall2 R raw l.
Proof.
  intros Hitem Hloop. apply for_append_returns in Hloop as (ys & -> & Hys).
  cbn [app]. apply Forall2_fmap_l in Hys.
  eapply Forall2_impl; [exact Hys|]. intros r y. apply Hitem.
Qed.

Lemma listing_raises (raw : list (gmap string val)) (r : gmap string val) e :
  In r raw -> item (Dict r) = Raises e ->
  exists e' r', In r' raw /\ item (Dict r') = Raises e'
    /\ for_append item (Dict <$> raw) [] = Raises e'.
Proof.
  intros Hin Hr.
  destruct (for_append_stops item (Dict <$> raw) [] (Dict r) e) as (e' & Hloop);
    [now apply in_map | exact Hr |].
  destruct (for_append_raises item _ _ _ Hloop) as (x & Hx & Hxe).
  apply in_map_iff in Hx as (r' & <- & Hr').
  now exists e', r'.
Qed.
End Listing.

(** C2, as the code has it, for the records of [/orders] and of
    [/positions] alike.  A numeric field that is missing becomes 0.0 and
    never fails the request: a listing whose records are all sendable
    (each numeric field missing or convertible, the rest renderable) is
    answered 200.  Every response that is sent carries, for each record and
    under every numeric key, the float made of the raw value, which is 0.0
    for a missing key (never null, never absent).  But a field that is
    present with a value [float] rejects is not defaulted: the request is
    answered with a 500 whose detail is the text of the error [float]
    raised on such a field. *)
Theorem numeric_fields_default_or_fail s (c : Client) s1 t1 :
  get_client api s = (Returns c, s1, t1) ->
  (forall (raw : list (gmap string val)) w,
      Polymarket.get_orders api c (world s1) = (Returns (List (Dict <$> raw)), w) ->
      let resp := (serve api rt GET_orders s).1.1 in
      (Forall (fun r => sendable rt order_numeric_fields order_plain_keys r = true) raw ->
       status resp = 200)
      /\ (status resp = 200 ->
           exists l, body resp = Dict {[ "orders" := List l; "total" := len l ]}
             /\ Forall2 (normalized rt order_numeric_fields) raw l)
      /\ (forall order k v,
           In order raw -> In k order_numeric_fields ->
           order !! k = Some v -> numeric rt v = false ->
           exists e order' k' v',
             In order' raw /\ In k' order_numeric_fields /\ order' !! k' = Some v'
             /\ float_ rt v' = Raises e
             /\ resp = Response 500 (detail_body (str rt e))))
  /\ (forall (raw : list (gmap string val)) w,
      Polymarket.get_positions api c (world s1) = (Returns (List (Dict <$> raw)), w) ->
      let resp := (serve api rt GET_positions s).1.1 in
      (Forall (fun r => sendable rt position_numeric_fields position_plain_keys r = true)
         raw ->
       status resp = 200)
      /\ (status resp = 200 ->
           exists l, body resp = Dict {[ "positions" := List l; "total" := len l ]}
             /\ Forall2 (normalized rt position_numeric_fields) raw l)
      /\ (forall pos k v,
           In pos raw -> In k position_numeric_fields ->
           pos !! k = Some v -> numeric rt v = false ->
           exists e pos' k' v',
             In pos' raw /\ In k' position_numeric_fields /\ pos' !! k' = Some v'
             /\ float_ rt v' = Raises e
             /\ resp = Response 500 (detail_body (str rt e)))).
Proof.
  intros Hclient. split.
  - intros raw w Hcall resp. subst resp. unfold serve, route.
    rewrite get_open_orders_eq, Hclient, Hcall, orders_body_List. cbn [fst].
    split; [|split].
    + intros Hraw.
      destruct (listing_sendable (order_item rt) "orders" raw _ order_item_sendable Hraw)
        as (l & -> & Hok).
      cbn [settled respond response_model]. now rewrite Hok.
    + destruct (for_append _ _ []) as [l|e] eqn:Hloop;
        cbn [settled failed respond response_model status]; [|discriminate].
      destruct (json_compliant _); cbn [status body]; [|discriminate].
      intros _. exists l. split; [reflexivity|].
      exact (listing_items _ raw l _ order_item_normalized Hloop).
    + intros order k v Hin Hk Hv Hnum.
      destruct (order_item_rejects order k v Hk Hv Hnum) as (e0 & He0).
      destruct (listing_raises _ raw order e0 Hin He0) as (e & order' & Hin' & He & ->).
      destruct (order_item_raises order' e He) as (k' & v' & Hk' & Hv' & Hf).
      exists e, order', k', v'. repeat split; assumption || reflexivity.
  - intros raw w Hcall resp. subst resp. unfold serve, route.
    rewrite get_positions_eq, Hclient, Hcall, positions_body_List. cbn [fst].
    split; [|split].
    + intros Hraw.
      destruct (listing_sendable (position_item rt) "positions" raw _
                  position_item_sendable Hraw) as (l & -> & Hok).
      cbn [settled respond response_model]. now rewrite Hok.
    + destruct (for_append _ _ []) as [l|e] eqn:Hloop;
        cbn [settled failed respond response_model status]; [|discriminate].
      destruct (json_compliant _); cbn [status body]; [|discriminate].
      intros _. exists l. split; [reflexivity|].
      exact (listing_items _ raw l _ position_item_normalized Hloop).
    + intros pos k v Hin Hk Hv Hnum.
      destruct (position_item_rejects pos k v Hk Hv Hnum) as (e0 & He0).
      destruct (listing_raises _ raw pos e0 Hin He0) as (e & pos' & Hin' & He & ->).
      destruct (position_item_raises pos' e He) as (k' & v' & Hk' & Hv' & Hf).
      exists e, pos', k', v'. repeat split; assumption || reflexivity.
Qed.

(** C3, as the code has it: a request that succeeds makes exactly the
    method calls of its route, in order and none of them raising: two for
    [/balance] ([get_balance], then [get_address_for_private_key]), one for
    every other route but [/health], which makes none; the one call before
    them is the constructor, when the handle was still unset.  Nothing is
    called after the last method has returned. *)
Theorem successful_request_calls req s resp s' t :
  serve api rt req s = (resp, s', t) ->
  status resp = 200 ->
  t = (if uses_client req
       then match polymarket_client s with
            | None => [Polymarket.Construct None]
            | Some _ => []
            end
       else [])
      ++ map (fun c => Polymarket.Invoke c None) (calls_of req)
  /\ length (invocations t) =
       match req with GET_health => 0 | GET_balance => 2 | _ => 1 end%nat.
Proof.
  intros Hserve. revert Hserve.
  destruct req; open_request; case_replies; intros [= <- <- <-];
    cbn [status]; intros Hok; try discriminate Hok;
    cbn [uses_client calls_of];
    repeat match goal with H : price _ = _ |- _ => rewrite H end;
    split; reflexivity.
Qed.

(** *** The client handle *)

(** A request whose handler reaches [get_client()] with the handle unset
    starts by calling the constructor; when that raises, nothing else
    happens and the handle stays unset. *)
Lemma serve_construction_fails req s e w :
  uses_client req = true ->
  polymarket_client s = None ->
  Polymarket.new api (world s) = (Raises e, w) ->
  serve api rt req s =
    (Response 500 (detail_body (str rt e)), State None w,
     [Polymarket.Construct (Some e)]).
Proof.
  intros Huses Hnone Hnew. destruct s as [g w0]. cbn in Hnone, Hnew. subst g.
  destruct req as [| | | |r|r|i|k]; try discriminate Huses; open_request;
    cbn [polymarket_client world]; rewrite ?Hnew; try reflexivity.
  cbn [uses_client] in Huses. destruct (price r); [|now vm_compute in Huses].
  reflexivity.
Qed.

(** When the constructor returns, the request goes on exactly as it would
    have with the instance already in the handle. *)
Lemma serve_construction_succeeds req (c : Client) w0 w :
  uses_client req = true ->
  Polymarket.new api w0 = (Returns c, w) ->
  exists resp s' t,
    serve api rt req (State (Some c) w) = (resp, s', t)
    /\ serve api rt req (State None w0) = (resp, s', Polymarket.Construct None :: t)
    /\ polymarket_client s' = Some c.
Proof.
  intros Huses Hnew.
  destruct req as [| | | |r|r|i|k]; try discriminate Huses; open_request;
    try (cbn [uses_client] in Huses;
         destruct (price r); [|now vm_compute in Huses]);
    cbn [polymarket_client world]; rewrite ?Hnew;
    case_replies; eexists _, _, _; repeat split.
Qed.

(** C6: when [Polymarket()] raises while a request is served, the request
    is answered with a 500 whose detail is the text of that error, and the
    handle stays unset; the next request that needs the client calls the
    constructor again, fails the same way if it raises again and, if it
    returns, is served exactly as with a client that was there all along,
    leaving the instance in the handle. *)
Theorem construction_failure_is_not_cached req s e w :
  uses_client req = true ->
  polymarket_client s = None ->
  Polymarket.new api (world s) = (Raises e, w) ->
  serve api rt req s =
    (Response 500 (detail_body (str rt e)), State None w,
     [Polymarket.Construct (Some e)])
  /\ forall req', uses_client req' = true ->
       match Polymarket.new api w with
       | (Raises e', w') =>
           serve api rt req' (State None w) =
             (Response 500 (detail_body (str rt e')), State None w',
              [Polymarket.Construct (Some e')])
       | (Returns c, w') =>
           exists resp s' t,
             serve api rt req' (State (Some c) w') = (resp, s', t)
             /\ serve api rt req' (State None w) =
                  (resp, s', Polymarket.Construct None :: t)
             /\ polymarket_client s' = Some c
       end.
Proof.
  intros Huses Hnone Hnew. split.
  - now apply serve_construction_fails.
  - intros req' Huses'.
    destruct (Polymarket.new api w) as [[c|e'] w'] eqn:Hnew'.
    + now apply serve_construction_succeeds.
    + now apply serve_construction_fails.
Qed.

(** One request keeps a handle that is set, calls the constructor only
    while it is unset, and sets it exactly when the constructor returns. *)
Lemma serve_handle req s :
  let '(_, s', t) := serve api rt req s in
  (built s + constructions t = built s')%nat
  /\ (forall c, polymarket_client s = Some c ->
        polymarket_client s' = Some c /\ attempts t = 0%nat).
Proof.
  destruct s as [[c|] w].
  all: destruct req; open_request; case_replies.
  all: (split; [reflexivity | intros c' [= ->]; split; reflexivity])
       || (split; [reflexivity | intros c' [=]]).
Qed.

Lemma constructions_app t1 t2 :
  constructions (t1 ++ t2) = (constructions t1 + constructions t2)%nat.
Proof. unfold constructions. now rewrite List.filter_app, length_app. Qed.

Lemma attempts_app t1 t2 : attempts (t1 ++ t2) = (attempts t1 + attempts t2)%nat.
Proof. unfold attempts. now rewrite List.filter_app, length_app. Qed.

Lemma serve_all_handle reqs s :
  let '(_, s', t) := serve_all api rt reqs s in
  (built s + constructions t = built s')%nat
  /\ (forall c, polymarket_client s = Some c ->
        polymarket_client s' = Some c /\ attempts t = 0%nat).
Proof.
  revert s. induction reqs as [|req reqs IH]; intros s; cbn [serve_all].
  - split; [apply Nat.add_0_r | intros c H; now split].
  - pose proof (serve_handle req s) as H1.
    destruct (serve api rt req s) as [[r s1] t1]. destruct H1 as [Hb1 Hk1].
    specialize (IH s1). destruct (serve_all api rt reqs s1) as [[rs s2] t2].
    destruct IH as [Hb2 Hk2]. split.
    + rewrite constructions_app. lia.
    + intros c Hc. destruct (Hk1 c Hc) as [Hc1 Ha1].
      destruct (Hk2 c Hc1) as [Hc2 Ha2]. split; [exact Hc2|].
      rewrite attempts_app. lia.
Qed.

(** C7: with the handle set, [get_client()] returns the stored instance,
    changes nothing and calls nothing; with the handle unset, a call that
    returns has called the constructor once and stored what it returns;
    and over any sequence of requests served one after the other the
    constructor returns at most once, after which the handle keeps that
    instance and the constructor is not called again. *)
Theorem client_constructed_at_most_once :
  (forall s (c : Client),
      polymarket_client s = Some c -> get_client api s = (Returns c, s, []))
  /\ (forall s (c : Client) s' t,
        polymarket_client s = None -> get_client api s = (Returns c, s', t) ->
        polymarket_client s' = Some c /\ t = [Polymarket.Construct None])
  /\ (forall reqs s,
        let '(_, s', t) := serve_all api rt reqs s in
        (built s + constructions t = built s')%nat
        /\ (constructions t <= 1)%nat
        /\ (forall c, polymarket_client s = Some c ->
              polymarket_client s' = Some c /\ attempts t = 0%nat)).
Proof.
  split; [|split].
  - intros s c Hc. rewrite get_client_eq, Hc. reflexivity.
  - intros s c s' t Hnone. rewrite get_client_eq, Hnone.
    destruct (Polymarket.new api (world s)) as [[c'|e] w]; intros [= <- <- <-].
    now split.
  - intros reqs s. pose proof (serve_all_handle reqs s) as H.
    destruct (serve_all api rt reqs s) as [[rs s'] t]. destruct H as [Hb Hk].
    split; [exact Hb|]. split; [|exact Hk].
    unfold built in Hb. destruct (polymarket_client s), (polymarket_client s'); lia.
Qed.

(** *** Further properties of the handlers *)

(** Whatever a handler was given, its run ends in a 200, in a 500 whose
    body is [{detail: msg}], or in the bare 500 of a body that does not
    pass the response model or cannot be rendered; no run ends in a 400. *)
Theorem response_is_200_or_500 req s :
  let resp := (serve api rt req s).1.1 in
  status resp = 200
  \/ (exists msg, resp = Response 500 (detail_body msg))
  \/ resp = bare_500.
Proof.
  destruct req; open_request; case_replies; cbn [fst status];
    first [ left; reflexivity
          | right; left; eexists; reflexivity
          | right; right; reflexivity ].
Qed.


(** A normalized order has exactly the eight keys of the Order schema:
    [id], [side] and [status] are the raw values, [market_id], [token_id]
    and [timestamp] are the raw [market], [asset_id] and [created_at] (null
    when missing); and the item depends on nothing but the eight keys read,
    so every other key of the raw record, a raw [market_id] or [token_id]
    included, is dropped. *)
Theorem order_item_shape (raw : gmap string val) :
  (forall item, order_item rt (Dict raw) = Returns item ->
     exists d, item = Dict d
       /\ dom d = {[ "id"; "market_id"; "token_id"; "side"; "price"; "size";
                     "status"; "timestamp" ]}
       /\ d !! "id" = Some (default None_ (raw !! "id"))
       /\ d !! "market_id" = Some (default None_ (raw !! "market"))
       /\ d !! "token_id" = Some (default None_ (raw !! "asset_id"))
       /\ d !! "side" = Some (default None_ (raw !! "side"))
       /\ d !! "status" = Some (default None_ (raw !! "status"))
       /\ d !! "timestamp" = Some (default None_ (raw !! "created_at")))
  /\ (forall raw' : gmap string val,
       (forall k, In k order_read_keys -> raw' !! k = raw !! k) ->
       order_item rt (Dict raw') = order_item rt (Dict raw)).
Proof.
  split.
  - intros item. item_cases; intros [= <-].
    eexists. split; [reflexivity|]. unfold get. repeat split; reflexivity.
  - intros raw' Hsame. rewrite !order_item_Dict. unfold get.
    rewrite (Hsame "id"), (Hsame "market"), (Hsame "asset_id"), (Hsame "side"),
      (Hsame "price"), (Hsame "size"), (Hsame "status"), (Hsame "created_at")
      by (cbn; tauto).
    reflexivity.
Qed.

(** A normalized position has exactly the eight keys of the Position
    schema: [market] and [side] are the raw values, [token_id] is the raw
    [asset_id] (null when missing); and the item depends on nothing but the
    eight keys read. *)
Theorem position_item_shape (raw : gmap string val) :
  (forall item, position_item rt (Dict raw) = Returns item ->
     exists d, item = Dict d
       /\ dom d = {[ "token_id"; "market"; "side"; "size"; "value"; "entry_price";
                     "current_price"; "pnl" ]}
       /\ d !! "token_id" = Some (default None_ (raw !! "asset_id"))
       /\ d !! "market" = Some (default None_ (raw !! "market"))
       /\ d !! "side" = Some (default None_ (raw !! "side")))
  /\ (forall raw' : gmap string val,
       (forall k, In k position_read_keys -> raw' !! k = raw !! k) ->
       position_item rt (Dict raw') = position_item rt (Dict raw)).
Proof.
  split.
  - intros item. item_cases; intros [= <-].
    eexists. split; [reflexivity|]. unfold get. repeat split; reflexivity.
  - intros raw' Hsame. rewrite !position_item_Dict. unfold get.
    rewrite (Hsame "asset_id"), (Hsame "market"), (Hsame "side"), (Hsame "size"),
      (Hsame "value"), (Hsame "entry_price"), (Hsame "current_price"), (Hsame "pnl")
      by (cbn; tauto).
    reflexivity.
Qed.

(** The loop stops at the first record whose item raises: the records
    before it have been converted, those after it are never looked at. *)
Lemma for_append_first_failure (item : val -> outcome val)
    (pre post : list val) (x : val) (acc : list val) e :
  Forall (fun y => exists v, item y = Returns v) pre ->
  item x = Raises e ->
  for_append item (pre ++ x :: post) acc = Raises e.
Proof.
  intros Hpre Hx. revert acc.
  induction Hpre as [|y pre [v Hy] _ IH]; intros acc; cbn [for_append app].
  - now rewrite Hx.
  - rewrite Hy. apply IH.
Qed.


(** The error a failing [/orders] or [/positions] request reports is that
    of the first record that does not convert, whatever follows it; within
    an order, a bad [price] is reported before a bad [size]. *)
Theorem first_failure_is_reported s (c : Client) s1 t1 :
  get_client api s = (Returns c, s1, t1) ->
  (forall pre bad post w e,
      Polymarket.get_orders api c (world s1) = (Returns (List (pre ++ bad :: post)), w) ->
      Forall (fun r => exists item, order_item rt r = Returns item) pre ->
      order_item rt bad = Raises e ->
      (serve api rt GET_orders s).1.1 = Response 500 (detail_body (str rt e)))
  /\ (forall pre bad post w e,
      Polymarket.get_positions api c (world s1)
        = (Returns (List (pre ++ bad :: post)), w) ->
      Forall (fun r => exists item, position_item rt r = Returns item) pre ->
      position_item rt bad = Raises e ->
      (serve api rt GET_positions s).1.1 = Response 500 (detail_body (str rt e)))
  /\ (forall (raw : gmap string val) e,
      float_ rt (get raw "price" (Int 0)) = Raises e ->
      order_item rt (Dict raw) = Raises e).
Proof.
  intros Hclient. split; [|split].
  - intros pre bad post w e Hcall Hpre Hbad. unfold serve, route.
    rewrite get_open_orders_eq, Hclient, Hcall, orders_body_List.
    now rewrite (for_append_first_failure _ pre post bad [] e Hpre Hbad).
  - intros pre bad post w e Hcall Hpre Hbad. unfold serve, route.
    rewrite get_positions_eq, Hclient, Hcall, positions_body_List.
    now rewrite (for_append_first_failure _ pre post bad [] e Hpre Hbad).
  - intros raw e Hprice. rewrite order_item_Dict. now rewrite Hprice.
Qed.

(** Whether it succeeds or fails, a request makes at most one constructor
    call, and only as its very first call; its method calls are an initial
    part of the calls of its route, each made once; and only its last call
    can have raised: nothing is retried and nothing is called after a
    raise. *)
Theorem request_events_shape req s :
  let t := (serve api rt req s).2 in
  (attempts t <= 1)%nat
  /\ attempts (tail t) = 0%nat
  /\ invocations t `prefix_of` calls_of req
  /\ Forall clean (removelast t).
Proof.
  destruct s as [[c|] w].
  all: destruct req; open_request; case_replies; cbn [snd calls_of].
  all: repeat match goal with H : price _ = _ |- _ => rewrite H end.
  all: repeat split;
    first [ reflexivity
          | cbn; lia
          | eexists; reflexivity
          | repeat constructor ].
Qed.

(** A cancellation is answered 200 exactly when no call on the client
    raised: what [cancel_order] returned, a failure report or a value that
    is not a record included, plays no part. *)
Theorem cancellation_succeeds_iff_nothing_raised (order_id : string) s :
  let '(resp, _, t) := serve api rt (DELETE_order order_id) s in
  status resp = 200 <-> Forall clean t.
Proof.
  destruct s as [[c|] w]; unfold serve, route; rewrite cancel_order_eq, get_client_eq;
    cbn [polymarket_client world].
  all: repeat match goal with
         | |- context [match ?m ?x with _ => _ end] => destruct (m x) as [[?|?] ?]
         end.
  all: cbn [app respond response_model failed]; rewrite ?cancelled_body_compliant;
    cbn [status].
  all: split; intros H; try discriminate H; try reflexivity.
  all: try (repeat constructor; fail).
  all: repeat match goal with
         | H : Forall clean (_ :: _) |- _ => apply Forall_cons in H; destruct H as [? H]
         end;
       contradiction.
Qed.

(** A request that does not reach [get_client()] ([/health], a limit order
    without a price) leaves the state as it was and calls nothing. *)
Lemma serve_without_client req s :
  uses_client req = false ->
  (serve api rt req s).1.2 = s /\ (serve api rt req s).2 = [].
Proof.
  destruct req as [| | | |r|r|i|k]; try discriminate; [now split|].
  cbn [uses_client]. unfold serve, route. rewrite place_limit_order_eq.
  destruct (price r); [now vm_compute|now split].
Qed.

(** Requests that do not reach [get_client()] are invisible to the others:
    taking them out of a sequence of requests changes neither the calls
    made on the client nor the final state nor the responses to the
    requests that remain. *)
Theorem clientless_requests_are_invisible (reqs : list request) s :
  let '(rs1, s1, t1) := serve_all api rt reqs s in
  let '(rs2, s2, t2) := serve_all api rt (List.filter uses_client reqs) s in
  s1 = s2 /\ t1 = t2
  /\ map snd (List.filter (fun p => uses_client p.1) (combine reqs rs1)) = rs2.
Proof.
  revert s. induction reqs as [|req reqs IH]; intros s; cbn [serve_all List.filter].
  - now cbn.
  - destruct (uses_client req) eqn:Huses; cbn [serve_all].
    + destruct (serve api rt req s) as [[r sa] ta].
      specialize (IH sa).
      destruct (serve_all api rt reqs sa) as [[rs1 s1] t1].
      destruct (serve_all api rt (List.filter uses_client reqs) sa) as [[rs2 s2] t2].
      destruct IH as (-> & -> & <-). cbn [combine List.filter fst].
      rewrite Huses. now cbn.
    + destruct (serve_without_client req s Huses) as [Hs Ht].
      destruct (serve api rt req s) as [[r sa] ta]. cbn in Hs, Ht. subst sa ta.
      specialize (IH s).
      destruct (serve_all api rt reqs s) as [[rs1 s1] t1].
      destruct (serve_all api rt (List.filter uses_client reqs) s) as [[rs2 s2] t2].
      destruct IH as (-> & -> & <-). cbn [combine List.filter fst app].
      rewrite Huses. now cbn.
Qed.

End Properties.


(** ** The statements at the scripted client *)

(** [float] of an [int]: 0 is 0.0, a tie is rounded to even, and an integer
    past the largest binary64 number is an [OverflowError]. *)
Example float_of_int_examples :
  float_of_int 0 = Some 0%float
  /\ float_of_int (2 ^ 53 + 1) = Some 9007199254740992%float
  /\ float_of_int (2 ^ 53 + 3) = Some 9007199254740996%float
  /\ float_of_int (2 ^ 1024) = None.
Proof. repeat split. Qed.

(** The scenario of the specification: a market order for 10 of T1. *)
Example market_order_scenario :
  serve (Stub.client []) Stub.runtime (POST_order_market Stub.T1_BUY_10)
    (State (Some tt) 0%nat) =
    (Response 200 (Dict {[ "success" := Bool true;
                           "order_id" := Str "O1";
                           "status" := Str "FILLED";
                           "filled_amount" := Int 10 ]}),
     State (Some tt) 0%nat,
     [Polymarket.Invoke (Polymarket.PlaceMarketOrder "T1" "BUY" 10) None]).
Proof. reflexivity. Qed.

(** With Starlette's [__str__], the detail of the limit order answered
    without a price reads "400: Price is required for limit orders". *)
Example limit_order_without_price_detail :
  serve (Stub.client []) Stub.runtime (POST_order_limit Stub.T1_BUY_10)
    (State None 0%nat) =
    (Response 500 (detail_body "400: Price is required for limit orders"),
     State None 0%nat, []).
Proof. reflexivity. Qed.

(** C4 at the scripted client, whose [cancel_order] reports that it did not
    cancel anything. *)
Lemma cancel_order_unconditional_success_witness :
  Polymarket.cancel_order (Stub.client []) tt "O7" 0%nat =
    (Returns (Dict {[ "success" := Bool false; "error" := Str "order not found" ]}),
     0%nat)
  /\ serve (Stub.client []) Stub.runtime (DELETE_order "O7") (State None 0%nat) =
       (Response 200 (Dict {[ "success" := Bool true;
                              "order_id" := Str "O7";
                              "status" := Str "cancelled" ]}),
        State (Some tt) 0%nat,
        [Polymarket.Construct None;
         Polymarket.Invoke (Polymarket.CancelOrder "O7") None]).
Proof.
  split; [reflexivity|].
  exact (cancel_order_unconditional_success (Stub.client []) Stub.runtime "O7"
           (State None 0%nat) tt (State (Some tt) 0%nat) [Polymarket.Construct None]
           _ 0%nat eq_refl eq_refl).
Defined.

(** C5 at the scripted client: the order book of an unknown market. *)
Lemma client_exception_becomes_500_witness :
  (serve (Stub.client []) Stub.runtime (GET_orderbook "T9") (State (Some tt) 0%nat)).1.1 =
    Response 500 (detail_body "no such market").
Proof.
  apply (client_exception_becomes_500 (Stub.client []) Stub.runtime (GET_orderbook "T9")
           (State (Some tt) 0%nat) _ (State (Some tt) 0%nat)
           [Polymarket.Invoke (Polymarket.GetOrderBook "T9") (Some Stub.no_market)]
           Stub.no_market).
  - reflexivity.
  - constructor. right. exists (Polymarket.GetOrderBook "T9"). reflexivity.
Defined.

(** C6 at the scripted client: the constructor fails once, then succeeds. *)
Lemma construction_failure_is_not_cached_witness :
  serve (Stub.client []) Stub.runtime GET_balance (State None 1%nat) =
    (Response 500 (detail_body "venue unreachable"), State None 0%nat,
     [Polymarket.Construct (Some Stub.unreachable)])
  /\ exists resp s' t,
       serve (Stub.client []) Stub.runtime GET_balance (State (Some tt) 0%nat)
         = (resp, s', t)
       /\ serve (Stub.client []) Stub.runtime GET_balance (State None 0%nat)
         = (resp, s', Polymarket.Construct None :: t)
       /\ polymarket_client s' = Some tt.
Proof.
  destruct (construction_failure_is_not_cached (Stub.client []) Stub.runtime
              GET_balance (State None 1%nat) Stub.unreachable 0%nat
              eq_refl eq_refl eq_refl) as [Hfirst Hnext].
  split; [exact Hfirst|]. exact (Hnext GET_balance eq_refl).
Defined.

(** C7 at the scripted client: three requests, the first of which meets a
    failing constructor. *)
Lemma client_constructed_at_most_once_witness :
  let '(_, s', t) :=
    serve_all (Stub.client []) Stub.runtime
      [GET_balance; GET_orders; DELETE_order "O7"] (State None 1%nat) in
  (built (State (World := nat) (Client := unit) None 1%nat) + constructions t
   = built s')%nat
  /\ (constructions t <= 1)%nat
  /\ (forall c, @None unit = Some c -> polymarket_client s' = Some c /\ attempts t = 0%nat).
Proof.
  exact (proj2 (proj2 (client_constructed_at_most_once (Stub.client []) Stub.runtime))
           [GET_balance; GET_orders; DELETE_order "O7"] (State None 1%nat)).
Defined.

(** What that run does: two constructor calls, one of which returned. *)
Example three_requests_two_attempts :
  let '(_, s', t) :=
    serve_all (Stub.client []) Stub.runtime
      [GET_balance; GET_orders; DELETE_order "O7"] (State None 1%nat) in
  polymarket_client s' = Some tt /\ attempts t = 2%nat /\ constructions t = 1%nat.
Proof. repeat split. Qed.

(** C8 at the scripted client: two raw orders, the second without numbers. *)
Lemma total_is_length_of_list_witness :
  let raw : list (gmap string val) :=
    [ {[ "id" := Str "O1"; "price" := Float 0.5; "size" := Int 10 ]};
      {[ "id" := Str "O2" ]} ] in
  exists l,
    body (serve (Stub.client raw) Stub.runtime GET_orders (State (Some tt) 0%nat)).1.1 =
      Dict {[ "orders" := List l; "total" := Int (Z.of_nat (length l)) ]}
    /\ length l = 2%nat.
Proof.
  intros raw.
  exact (proj1 (total_is_length_of_list (Stub.client raw) Stub.runtime
                  (State (Some tt) 0%nat) tt (State (Some tt) 0%nat) [] eq_refl)
           (Dict <$> raw) 0%nat _ _ _ eq_refl eq_refl eq_refl).
Defined.


(** The body of that limit order: the status the record lacks is null. *)
Example limit_order_status_is_null :
  serve (Stub.client []) Stub.runtime
    (POST_order_limit
       {| token_id := "T1"; side := "SELL"; amount := 10; price := Some 0.5%float |})
    (State (Some tt) 0%nat) =
    (Response 200 (Dict {[ "success" := Bool true; "order_id" := Str "O2";
                           "status" := None_ ]}),
     State (Some tt) 0%nat,
     [Polymarket.Invoke (Polymarket.PlaceLimitOrder "T1" "SELL" 10 0.5) None]).
Proof. reflexivity. Qed.

(** C2 as stated fails: a raw order whose [price] is null, which is not a
    number, is not sent with price 0; the whole [/orders] request is
    answered with a 500. *)
Lemma orders_null_price_is_500 :
  let order : gmap string val :=
    {[ "id" := Str "O1"; "price" := None_; "size" := Int 10 ]} in
  order !! "price" = Some None_
  /\ numeric Stub.runtime None_ = false
  /\ serve (Stub.client [order]) Stub.runtime GET_orders (State (Some tt) 0%nat) =
       (Response 500 (detail_body "float() argument must be a string or a real number"),
        State (Some tt) 0%nat,
        [Polymarket.Invoke Polymarket.GetOrders None]).
Proof. repeat split. Qed.

(** C2 amended, at the scripted client: an order without numbers is sent
    with price and size 0.0; put before an order whose price is null, it
    does not save the request. *)
Lemma numeric_fields_default_or_fail_witness :
  let good : gmap string val := {[ "id" := Str "O2" ]} in
  let bad : gmap string val :=
    {[ "id" := Str "O1"; "price" := None_; "size" := Int 10 ]} in
  let sent := (serve (Stub.client [good]) Stub.runtime GET_orders
                 (State (Some tt) 0%nat)).1.1 in
  let refused := (serve (Stub.client [good; bad]) Stub.runtime GET_orders
                    (State (Some tt) 0%nat)).1.1 in
  status sent = 200
  /\ (exists l, body sent = Dict {[ "orders" := List l; "total" := len l ]}
        /\ Forall2 (normalized Stub.runtime order_numeric_fields) [good] l)
  /\ (exists e order' k' v',
        In order' [good; bad] /\ In k' order_numeric_fields /\ order' !! k' = Some v'
        /\ float_ Stub.runtime v' = Raises e
        /\ refused = Response 500 (detail_body (str Stub.runtime e))).
Proof.
  intros good bad sent refused.
  destruct (proj1 (numeric_fields_default_or_fail (Stub.client [good]) Stub.runtime
                     (State (Some tt) 0%nat) tt (State (Some tt) 0%nat) [] eq_refl)
              [good] 0%nat eq_refl) as (Hsent & Hitems & _).
  destruct (proj1 (numeric_fields_default_or_fail (Stub.client [good; bad]) Stub.runtime
                     (State (Some tt) 0%nat) tt (State (Some tt) 0%nat) [] eq_refl)
              [good; bad] 0%nat eq_refl) as (_ & _ & Hrefused).
  assert (status sent = 200) as H200.
  { apply Hsent. repeat constructor. }
  split; [exact H200|]. split; [exact (Hitems H200)|].
  exact (Hrefused bad "price" None_ (or_intror (or_introl eq_refl)) (or_introl eq_refl)
           eq_refl eq_refl).
Defined.

(** What is sent for the order without numbers. *)
Example order_without_numbers :
  serve (Stub.client [ {[ "id" := Str "O2" ]} ]) Stub.runtime GET_orders
    (State (Some tt) 0%nat) =
    (Response 200
       (Dict {[ "orders" :=
                  List [Dict {[ "id" := Str "O2"; "market_id" := None_;
                                "token_id" := None_; "side" := None_;
                                "price" := Float 0; "size" := Float 0;
                                "status" := None_; "timestamp" := None_ ]}];
                "total" := Int 1 ]}),
     State (Some tt) 0%nat,
     [Polymarket.Invoke Polymarket.GetOrders None]).
Proof. reflexivity. Qed.

(** C3 as stated fails: a successful [/balance] request makes two method
    calls on the client. *)
Lemma balance_makes_two_calls :
  let '(resp, _, t) :=
    serve (Stub.client []) Stub.runtime GET_balance (State (Some tt) 0%nat) in
  status resp = 200
  /\ t = [Polymarket.Invoke Polymarket.GetBalance None;
          Polymarket.Invoke Polymarket.GetAddressForPrivateKey None]
  /\ length (invocations t) = 2%nat.
Proof. repeat split. Qed.

(** C3 amended, at the scripted client: the first [/orders] request. *)
Lemma successful_request_calls_witness :
  (serve (Stub.client []) Stub.runtime GET_orders (State None 0%nat)).2 =
    [Polymarket.Construct None; Polymarket.Invoke Polymarket.GetOrders None]
  /\ length (invocations
       (serve (Stub.client []) Stub.runtime GET_orders (State None 0%nat)).2) = 1%nat.
Proof.
  exact (successful_request_calls (Stub.client []) Stub.runtime GET_orders
           (State None 0%nat) _ _ _ eq_refl eq_refl).
Defined.

(** ** The further properties at the scripted client *)


(** What is sent for the order book of T1. *)
Example orderbook_of_T1 :
  (serve (Stub.client []) Stub.runtime (GET_orderbook "T1") (State (Some tt) 0%nat)).1.1 =
    Response 200 (Dict {[ "token_id" := Str "T1"; "bids" := List [];
                          "asks" := List []; "spread" := Float 0.25 ]}).
Proof. reflexivity. Qed.

(** An order that carries a [market_id] and a note of its own: both are
    dropped, the Order's [market_id] is the raw [market]. *)
Lemma order_item_shape_witness :
  let raw : gmap string val := {[ "id" := Str "O1"; "market" := Str "M1" ]} in
  let raw' : gmap string val :=
    {[ "id" := Str "O1"; "market" := Str "M1"; "market_id" := Str "M9";
       "note" := Str "urgent" ]} in
  order_item Stub.runtime (Dict raw') = order_item Stub.runtime (Dict raw).
Proof.
  intros raw raw'.
  apply (proj2 (order_item_shape Stub.runtime raw) raw').
  intros k Hk. cbn [In order_read_keys] in Hk.
  repeat (destruct Hk as [<-|Hk]; [reflexivity|]). contradiction.
Defined.

(** A position that carries a [token_id] of its own: it is dropped. *)
Lemma position_item_shape_witness :
  let raw : gmap string val := {[ "asset_id" := Str "T1"; "size" := Int 3 ]} in
  let raw' : gmap string val :=
    {[ "asset_id" := Str "T1"; "size" := Int 3; "token_id" := Str "T9" ]} in
  position_item Stub.runtime (Dict raw') = position_item Stub.runtime (Dict raw).
Proof.
  intros raw raw'.
  apply (proj2 (position_item_shape Stub.runtime raw) raw').
  intros k Hk. cbn [In position_read_keys] in Hk.
  repeat (destruct Hk as [<-|Hk]; [reflexivity|]). contradiction.
Defined.


(** A null price between two good orders. *)
Lemma first_failure_is_reported_witness :
  let good : gmap string val := {[ "id" := Str "O2" ]} in
  let bad : gmap string val := {[ "id" := Str "O1"; "price" := None_ ]} in
  (serve (Stub.client [good; bad; good]) Stub.runtime GET_orders
     (State (Some tt) 0%nat)).1.1 =
    Response 500 (detail_body "float() argument must be a string or a real number").
Proof.
  intros good bad.
  apply (proj1 (first_failure_is_reported (Stub.client [good; bad; good]) Stub.runtime
                  (State (Some tt) 0%nat) tt (State (Some tt) 0%nat) [] eq_refl)
           [Dict good] (Dict bad) [Dict good] 0%nat
           (Error "TypeError" "float() argument must be a string or a real number")).
  - reflexivity.
  - constructor; [|constructor]. eexists. reflexivity.
  - reflexivity.
Defined.

(** A run with two health checks and a limit order without a price among
    three requests that use the client. *)
Example probes_do_not_disturb :
  let reqs := [GET_health; GET_balance; POST_order_limit Stub.T1_BUY_10;
               DELETE_order "O7"; GET_health; GET_orderbook "T9"] in
  List.filter uses_client reqs = [GET_balance; DELETE_order "O7"; GET_orderbook "T9"]
  /\ (serve_all (Stub.client []) Stub.runtime reqs (State None 1%nat)).2 =
       [Polymarket.Construct (Some Stub.unreachable);
        Polymarket.Construct None;
        Polymarket.Invoke (Polymarket.CancelOrder "O7") None;
        Polymarket.Invoke (Polymarket.GetOrderBook "T9") (Some Stub.no_market)].
Proof. split; reflexivity. Qed.

(** Replies of another shape than the handlers expect: a listing that is
    null cannot be iterated, a placement result that is null has no [.get]
    (both raise inside the [try]: a 500 with the text of the error), and a
    result whose [filled_amount] is a NaN is built into a body that cannot
    be rendered (a bare 500, after the handler has returned). *)
Example null_replies :
  (serve (Stub.scripted None_ None_) Stub.runtime GET_orders (State (Some tt) 0%nat)).1.1 =
    Response 500 (detail_body "'NoneType' object is not iterable")
  /\ (serve (Stub.scripted None_ None_) Stub.runtime (POST_order_market Stub.T1_BUY_10)
        (State (Some tt) 0%nat)).1.1 =
      Response 500 (detail_body "'NoneType' object has no attribute 'get'")
  /\ (serve (Stub.scripted (List [Str "O1"]) None_) Stub.runtime GET_orders
        (State (Some tt) 0%nat)).1.1 =
      Response 500 (detail_body "'str' object has no attribute 'get'")
  /\ (serve (Stub.scripted None_ (Dict {[ "id" := Str "O1"; "filled_amount" := Float nan ]}))
        Stub.runtime (POST_order_market Stub.T1_BUY_10) (State (Some tt) 0%nat)).1.1 =
      bare_500.
Proof. repeat split. Qed.
